(** * altrion-frontend: session store, route guards and platform service

    A shallow embedding of

    - [src/store/authStore.ts]           (the zustand session store),
    - [src/components/routing/ProtectedRoute.tsx] (the two route guards),
    - the platform service module        (the connection workflow),

    followed by the properties the specification states about them. *)

From stdpp Require Import gmap strings list fin_maps.

Local Open Scope string_scope.

(** ** JavaScript truthiness

    [!!v] and [a || b] on the two kinds of nullable values the sources use:
    an object reference (always truthy when present) and a string (truthy
    when present and non-empty). *)

Definition truthy_obj {A : Type} (v : option A) : bool :=
  match v with
  | Some _ => true
  | None => false
  end.

Definition truthy_str (v : option string) : bool :=
  match v with
  | Some s => negb (String.eqb s "")
  | None => false
  end.

(** [a || b] where [a : string | undefined] and [b : string]. *)
Definition or_str (a : option string) (b : string) : string :=
  match a with
  | Some s => if truthy_str a then s else b
  | None => b
  end.

(** * The session store: [authStore.ts] *)

Module AuthStore.

Section Store.

(** [User] of [@/types] is not among the sources and the store never looks
    inside it: a parameter. *)
Variable User : Type.

(** [interface AuthState] *)
Record AuthState : Type := mkAuthState {
  user : option User;
  token : option string;
  isAuthenticated : bool;
  isLoading : bool;
  error : option string;
  hasCompletedOnboarding : bool;
  justSignedUp : bool;
}.

(** [const initialState: AuthState] *)
Definition initialState : AuthState := {|
  user := None;
  token := None;
  isAuthenticated := false;
  isLoading := false;
  error := None;
  hasCompletedOnboarding := false;
  justSignedUp := false;
|}.

(** Field assignments on the immer draft: [state.f = v]. *)
Definition assign_user (v : option User) (state : AuthState) : AuthState :=
  mkAuthState v (token state) (isAuthenticated state) (isLoading state)
    (error state) (hasCompletedOnboarding state) (justSignedUp state).

Definition assign_token (v : option string) (state : AuthState) : AuthState :=
  mkAuthState (user state) v (isAuthenticated state) (isLoading state)
    (error state) (hasCompletedOnboarding state) (justSignedUp state).

Definition assign_isAuthenticated (v : bool) (state : AuthState) : AuthState :=
  mkAuthState (user state) (token state) v (isLoading state)
    (error state) (hasCompletedOnboarding state) (justSignedUp state).

Definition assign_isLoading (v : bool) (state : AuthState) : AuthState :=
  mkAuthState (user state) (token state) (isAuthenticated state) v
    (error state) (hasCompletedOnboarding state) (justSignedUp state).

Definition assign_error (v : option string) (state : AuthState) : AuthState :=
  mkAuthState (user state) (token state) (isAuthenticated state) (isLoading state)
    v (hasCompletedOnboarding state) (justSignedUp state).

Definition assign_hasCompletedOnboarding (v : bool) (state : AuthState) : AuthState :=
  mkAuthState (user state) (token state) (isAuthenticated state) (isLoading state)
    (error state) v (justSignedUp state).

Definition assign_justSignedUp (v : bool) (state : AuthState) : AuthState :=
  mkAuthState (user state) (token state) (isAuthenticated state) (isLoading state)
    (error state) (hasCompletedOnboarding state) v.

(** [set((state) => { ... })]: immer runs the recipe, a sequence of
    assignments, on a draft of the current state and the store swaps in the
    finished draft in one step. A recipe is the list of its assignments in
    program order. *)
Definition recipe : Type := list (AuthState -> AuthState).

Definition set (r : recipe) (current : AuthState) : AuthState :=
  foldl (fun draft assign => assign draft) current r.

(** The actions of [useAuthStore]. TypeScript's [User] is erased at run
    time, so [login] receives a nullable reference like [setUser] does;
    the token is a string. *)
Definition setUser (u : option User) : AuthState -> AuthState :=
  set [ assign_user u;
        assign_isAuthenticated (truthy_obj u) ].

Definition setToken (t : option string) : AuthState -> AuthState :=
  set [ assign_token t ].

Definition setLoading (loading : bool) : AuthState -> AuthState :=
  set [ assign_isLoading loading ].

Definition setError (e : option string) : AuthState -> AuthState :=
  set [ assign_error e ].

Definition login (u : option User) (t : string) : AuthState -> AuthState :=
  set [ assign_user u;
        assign_token (Some t);
        assign_isAuthenticated true;
        assign_error None ].

Definition logout : AuthState -> AuthState :=
  set [ assign_user None;
        assign_token None;
        assign_isAuthenticated false;
        assign_error None;
        assign_hasCompletedOnboarding false;
        assign_justSignedUp false ].

Definition clearError : AuthState -> AuthState :=
  set [ assign_error None ].

Definition completeOnboarding : AuthState -> AuthState :=
  set [ assign_hasCompletedOnboarding true ].

Definition setJustSignedUp (value : bool) : AuthState -> AuthState :=
  set [ assign_justSignedUp value ].

(** [interface AuthActions], as data, to speak about sequences of calls. *)
Inductive Action : Type :=
| SetUser (u : option User)
| SetToken (t : option string)
| SetLoading (loading : bool)
| SetError (e : option string)
| Login (u : option User) (t : string)
| Logout
| ClearError
| CompleteOnboarding
| SetJustSignedUp (value : bool).

Definition dispatch (a : Action) : AuthState -> AuthState :=
  match a with
  | SetUser u => setUser u
  | SetToken t => setToken t
  | SetLoading b => setLoading b
  | SetError e => setError e
  | Login u t => login u t
  | Logout => logout
  | ClearError => clearError
  | CompleteOnboarding => completeOnboarding
  | SetJustSignedUp v => setJustSignedUp v
  end.

(** The store states observed after each action of a run, oldest first. *)
Fixpoint states_after (acts : list Action) (s : AuthState) : list AuthState :=
  match acts with
  | [] => []
  | a :: rest => let s' := dispatch a s in s' :: states_after rest s'
  end.

Definition run (acts : list Action) (s : AuthState) : AuthState :=
  foldl (fun st a => dispatch a st) s acts.

(** The side condition of the specification: [login] gets a real user. *)
Definition login_has_user (a : Action) : bool :=
  match a with
  | Login u _ => truthy_obj u
  | _ => true
  end.

(** [isAuthenticated == (user != null)] *)
Definition auth_invariant (s : AuthState) : Prop :=
  isAuthenticated s = truthy_obj (user s).

(** Selectors. *)
Definition selectUser (state : AuthState) : option User := user state.
Definition selectIsAuthenticated (state : AuthState) : bool := isAuthenticated state.
Definition selectIsLoading (state : AuthState) : bool := isLoading state.
Definition selectError (state : AuthState) : option string := error state.

(** *** The [persist] middleware

    [persist(..., { name, storage: createJSONStorage(() => localStorage),
    partialize })].  What is written to storage is a plain JavaScript
    object, a finite map from property names to JSON data; the JSON text
    that [localStorage] holds is identified with the data it denotes. *)
Inductive jsval : Type :=
| JNull
| JBool (b : bool)
| JStr (s : string)
| JUser (u : User).

Definition js_of_user (v : option User) : jsval :=
  match v with Some u => JUser u | None => JNull end.

Definition js_of_str (v : option string) : jsval :=
  match v with Some s => JStr s | None => JNull end.

(** The store's state as the object zustand holds (data properties only). *)
Definition to_object (state : AuthState) : gmap string jsval :=
  {[ "user" := js_of_user (user state);
     "token" := js_of_str (token state);
     "isAuthenticated" := JBool (isAuthenticated state);
     "isLoading" := JBool (isLoading state);
     "error" := js_of_str (error state);
     "hasCompletedOnboarding" := JBool (hasCompletedOnboarding state);
     "justSignedUp" := JBool (justSignedUp state) ]}.

(** [partialize: (state) => ({ user, token, isAuthenticated,
    hasCompletedOnboarding })] *)
Definition partialize (state : AuthState) : gmap string jsval :=
  {[ "user" := js_of_user (user state);
     "token" := js_of_str (token state);
     "isAuthenticated" := JBool (isAuthenticated state);
     "hasCompletedOnboarding" := JBool (hasCompletedOnboarding state) ]}.

(** [name: 'altrion-auth'] *)
Definition storage_name : string := "altrion-auth".

(** Modelled from the spec: the write of zustand's [persist] middleware,
    which is not part of this repository ("on every mutation, the subset ...
    is serialized to durable local storage under a fixed namespaced key").
    [localStorage] is a map from keys to stored snapshots. After every [set]
    the middleware stores [partialize(state)] under [name]; the version tag
    it wraps the snapshot in is left out, the store declares neither a
    version nor a migration. *)
Definition setItem (state : AuthState) (ls : gmap string (gmap string jsval))
  : gmap string (gmap string jsval) :=
  <[ storage_name := partialize state ]> ls.

(** Modelled from the spec: the middleware's default [merge], which the
    store does not override ("merged over defaults (missing fields take
    initial-state values)"); in zustand it reads
    [(persisted, current) => ({ ...current, ...persisted })]. *)
Definition merge (persisted current : gmap string jsval) : gmap string jsval :=
  persisted ∪ current.

(** Modelled from the spec: the middleware's hydration at start-up ("on
    process start this subset is deserialized and merged over defaults").
    The stored snapshot, when there is one, is merged over the freshly
    created store, whose state is [initialState]. *)
Definition rehydrate (ls : gmap string (gmap string jsval)) : gmap string jsval :=
  match ls !! storage_name with
  | Some persisted => merge persisted (to_object initialState)
  | None => to_object initialState
  end.

(** Reading the store object back at the types of [interface AuthState]. *)
Definition as_user (v : jsval) : option (option User) :=
  match v with
  | JNull => Some None
  | JUser u => Some (Some u)
  | _ => None
  end.

Definition as_str (v : jsval) : option (option string) :=
  match v with
  | JNull => Some None
  | JStr s => Some (Some s)
  | _ => None
  end.

Definition as_bool (v : jsval) : option bool :=
  match v with
  | JBool b => Some b
  | _ => None
  end.

Definition of_object (o : gmap string jsval) : option AuthState :=
  u ← o !! "user" ≫= as_user;
  t ← o !! "token" ≫= as_str;
  a ← o !! "isAuthenticated" ≫= as_bool;
  l ← o !! "isLoading" ≫= as_bool;
  e ← o !! "error" ≫= as_str;
  h ← o !! "hasCompletedOnboarding" ≫= as_bool;
  j ← o !! "justSignedUp" ≫= as_bool;
  Some (mkAuthState u t a l e h j).

(** A store wired to its storage: one action, then the write. *)
Definition persisted_dispatch (a : Action)
    (st : AuthState * gmap string (gmap string jsval))
  : AuthState * gmap string (gmap string jsval) :=
  let s' := dispatch a (fst st) in (s', setItem s' (snd st)).

(** The four persisted property names. *)
Definition persisted_fields : gset string :=
  {[ "user"; "token"; "isAuthenticated"; "hasCompletedOnboarding" ]}.

End Store.

Arguments mkAuthState {User} _ _ _ _ _ _ _.
Arguments user {User} _.
Arguments token {User} _.
Arguments isAuthenticated {User} _.
Arguments isLoading {User} _.
Arguments error {User} _.
Arguments hasCompletedOnboarding {User} _.
Arguments justSignedUp {User} _.
Arguments initialState {User}.
Arguments assign_isLoading {User} v state.
Arguments JNull {User}.
Arguments JBool {User} b.
Arguments JStr {User} s.
Arguments JUser {User} u.
Arguments setUser {User} u _.
Arguments setToken {User} t _.
Arguments setLoading {User} loading _.
Arguments setError {User} e _.
Arguments login {User} u t _.
Arguments logout {User} _.
Arguments clearError {User} _.
Arguments completeOnboarding {User} _.
Arguments setJustSignedUp {User} value _.
Arguments SetUser {User} u.
Arguments SetToken {User} t.
Arguments SetLoading {User} loading.
Arguments SetError {User} e.
Arguments Login {User} u t.
Arguments Logout {User}.
Arguments ClearError {User}.
Arguments CompleteOnboarding {User}.
Arguments SetJustSignedUp {User} value.
Arguments dispatch {User} a _.
Arguments states_after {User} acts s.
Arguments run {User} acts s.
Arguments login_has_user {User} a.
Arguments auth_invariant {User} s.
Arguments to_object {User} state.
Arguments partialize {User} state.
Arguments setItem {User} state ls.
Arguments merge {User} persisted current.
Arguments rehydrate {User} ls.
Arguments persisted_dispatch {User} a st.
Arguments of_object {User} o.
Arguments selectIsAuthenticated {User} state.

End AuthStore.

(** * The route guards: [ProtectedRoute.tsx] *)

Module Routing.

Import AuthStore.

(** [ROUTES] of [@/constants] is not among the sources; the guards use three
    of its paths, whose values stay parameters. *)
Record Routes : Type := mkRoutes {
LOGIN : string;
DASHBOARD : string;
ONBOARDING : string;
}.

(** The navigation state the guards exchange: [{ from?: string }]. *)
Record NavState : Type := mkNavState {
from : option string;
}.

(** What [useLocation()] returns, as far as the guards read it;
  [state] is [null] when the navigation carried none. *)
Record Location : Type := mkLocation {
pathname : string;
state : option NavState;
}.

Section Guards.

Variable User : Type.
(** [ReactNode], opaque. *)
Variable ReactNode : Type.
Variable ROUTES : Routes.

(** What a guard returns: [<Navigate to state replace />] or
    [<>{children}</>]. A [Navigate] without a [state] attribute carries
    none, without [replace] it pushes. *)
Inductive Element : Type :=
| Navigate (to : string) (state : option NavState) (replace : bool)
| Children (children : ReactNode).

(** [location.state?.from] *)
Definition state_from (location : Location) : option string :=
  match state location with
  | Some st => from st
  | None => None
  end.

(** [ProtectedRoute({ children, redirectTo = ROUTES.LOGIN })]; the two
    hooks read the store and the router, passed here as arguments. *)
Definition ProtectedRoute (children : ReactNode) (redirectTo : option string)
    (store : AuthState User) (location : Location) : Element :=
  let redirectTo := default (LOGIN ROUTES) redirectTo in
  let isAuthenticated := selectIsAuthenticated store in
  if negb isAuthenticated then
    Navigate redirectTo (Some {| from := Some (pathname location) |}) true
  else
    Children children.

(** [PublicOnlyRoute({ children, redirectTo = ROUTES.DASHBOARD })] *)
Definition PublicOnlyRoute (children : ReactNode) (redirectTo : option string)
    (store : AuthState User) (location : Location) : Element :=
  let redirectTo := default (DASHBOARD ROUTES) redirectTo in
  let isAuthenticated := selectIsAuthenticated store in
  let justSignedUp := justSignedUp store in
  if isAuthenticated then
    if justSignedUp then
      Navigate (ONBOARDING ROUTES) None true
    else
      let from := state_from location in
      Navigate (or_str from redirectTo) None true
  else
    Children children.

End Guards.

Arguments Navigate {ReactNode} to state replace.
Arguments Children {ReactNode} children.
Arguments ProtectedRoute {User ReactNode} ROUTES children redirectTo store location.
Arguments PublicOnlyRoute {User ReactNode} ROUTES children redirectTo store location.

End Routing.

(** * The connection workflow: [platformService] *)

(** [category: 'crypto' | 'bank' | 'broker'] *)
Inductive Category : Type := Crypto | Bank | Broker.

(** [status: 'pending' | 'connecting' | 'success' | 'error'], the union of
    [BackendConnectionResponse]. Modelled from the spec: [ConnectionStatus]
    of [@/types] is the same four literals ("status ∈ {pending, connecting,
    success, error}"), so [data.status as ConnectionStatus], a cast that
    runs no code, is the identity. *)
Inductive ConnectionStatus : Type := Pending | Connecting | Success | Error.

(** [interface BackendPlatform] *)
Module BackendPlatform.
Record t : Type := mk {
  id : string;
  name : string;
  icon : string;
  category : Category;
}.
End BackendPlatform.

(** Modelled from the spec: [Platform] of [@/types], a value object with
    [id], display [name], [icon] reference and [category]; these are the four
    properties the service's object literals write. *)
Module Platform.
Record t : Type := mk {
  id : string;
  name : string;
  icon : string;
  category : Category;
}.
End Platform.

(** [interface BackendConnectionResponse] *)
Module BackendConnectionResponse.
Record t : Type := mk {
  platform_id : string;
  status : ConnectionStatus;
  message : option string;
  account_id : option string;
}.
End BackendConnectionResponse.

(** [interface ConnectionResult] *)
Module ConnectionResult.
Record t : Type := mk {
  platformId : string;
  status : ConnectionStatus;
  message : option string;
}.
End ConnectionResult.

(** The element type of the [/platforms/connected] payload. *)
Module Account.
Record t : Type := mk {
  id : string;
  name : string;
  last_synced_at : option string;
  error_message : option string;
}.
End Account.

Module Connected.
Record t : Type := mk {
  platform : BackendPlatform.t;
  accounts : list Account.t;
}.
End Connected.

(** Modelled from the spec: [ApiKeyCredentials] of [@/schemas],
    [{apiKey, apiSecret}], the two properties [connectWithApiKey] reads. *)
Module ApiKeyCredentials.
Record t : Type := mk {
  apiKey : string;
  apiSecret : string;
}.
End ApiKeyCredentials.

(** The response body of [/plaid/link-token]. *)
Module LinkToken.
Record t : Type := mk {
  success : bool;
  link_token : string;
}.
End LinkToken.

(** The return type of [getPlatforms]. *)
Module Groups.
Record t : Type := mk {
  crypto : list Platform.t;
  banks : list Platform.t;
  brokers : list Platform.t;
}.
End Groups.

Module PlatformService.

Section Service.

(** What a rejected promise carries: any JavaScript value. *)
Variable Err : Type.
(** [PlatformCredentials | Record<string, string>], passed through as is. *)
Variable Credentials : Type.

(** *** Promises and the console

    An [async] function is a computation over the console log that ends
    fulfilled with a value or rejected with an error. *)
Definition Console : Type := list (string * Err).

Inductive Outcome (A : Type) : Type :=
| Fulfilled (a : A)
| Rejected (e : Err).
Arguments Fulfilled {A} a.
Arguments Rejected {A} e.

Definition Async (A : Type) : Type := Console -> Outcome A * Console.

Definition ret {A : Type} (a : A) : Async A := fun log => (Fulfilled a, log).

Definition throw {A : Type} (e : Err) : Async A := fun log => (Rejected e, log).

Definition bind {A B : Type} (m : Async A) (k : A -> Async B) : Async B :=
  fun log =>
    match m log with
    | (Fulfilled a, log') => k a log'
    | (Rejected e, log') => (Rejected e, log')
    end.

(** [try { body } catch (error) { handler }] *)
Definition try_catch {A : Type} (body : Async A) (handler : Err -> Async A) : Async A :=
  fun log =>
    match body log with
    | (Fulfilled a, log') => (Fulfilled a, log')
    | (Rejected e, log') => handler e log'
    end.

(** [console.error(msg, error)] *)
Definition console_error (msg : string) (e : Err) : Async unit :=
  fun log => (Fulfilled tt, (log ++ [(msg, e)])%list).

(** [await p] on the promise an [api] call returned. *)
Definition await {A : Type} (p : Outcome A) : Async A := fun log => (p, log).

(** *** The HTTP client [api] of [./api]

    One entry per call the service makes, typed by the response body the
    call site asks for; each returns the settled promise's [data]. *)
Inductive ConnectBody : Type :=
| CredentialsBody (credentials : Credentials)
| ApiKeyBody (api_key api_secret : string).

Record Api : Type := mkApi {
  get_platforms : string -> Outcome (list BackendPlatform.t);
  post_connect : string -> ConnectBody -> Outcome BackendConnectionResponse.t;
  post_link_token : string -> Outcome LinkToken.t;
  delete : string -> Outcome unit;
  get_connected : string -> Outcome (list Connected.t);
}.

Variable api : Api.

Notation "'let!' x ':=' m 'in' k" := (bind m (fun x => k))
  (at level 10, x name, m at level 100, k at level 200).

(** *** [platformService] *)

Definition fallbackWallet : Platform.t :=
  Platform.mk "wallet" "Wallet" "/wallet.svg" Crypto.

Definition getPlatforms : Async Groups.t :=
  try_catch
    (let! data := await (get_platforms api "/platforms") in
     let platforms : list Platform.t :=
       map (fun platform =>
              Platform.mk (BackendPlatform.id platform)
                          (BackendPlatform.name platform)
                          (BackendPlatform.icon platform)
                          (BackendPlatform.category platform)) data in
     let walletPlatforms :=
       filter (fun platform => Platform.id platform = "wallet") platforms in
     let bankPlatforms :=
       filter (fun platform => Platform.id platform = "plaid") platforms in
     let cryptoPlatforms :=
       if decide (0 < length walletPlatforms) then walletPlatforms
       else [fallbackWallet] in
     ret (Groups.mk cryptoPlatforms bankPlatforms []))
    (fun error =>
       let! _ := console_error "Failed to fetch platforms:" error in
       ret (Groups.mk
              [Platform.mk "wallet" "Wallet" "/wallet.svg" Crypto]
              [Platform.mk "plaid" "Plaid" "/plaid.svg" Bank]
              [])).

Definition connectWithCredentials (platformId : string) (credentials : Credentials)
  : Async ConnectionResult.t :=
  try_catch
    (let! data := await (post_connect api ("/platforms/" +:+ platformId +:+ "/connect")
                                 (CredentialsBody credentials)) in
     ret (ConnectionResult.mk
            (BackendConnectionResponse.platform_id data)
            (BackendConnectionResponse.status data)
            (BackendConnectionResponse.message data)))
    (fun error =>
       let! _ := console_error "Failed to connect platform:" error in
       ret (ConnectionResult.mk
              platformId
              Error
              (Some "Failed to connect. Please check your credentials."))).

Definition getPlaidLinkToken : Async string :=
  let! data := await (post_link_token api "/plaid/link-token") in
  ret (LinkToken.link_token data).

Definition connectWithApiKey (platformId : string) (apiCredentials : ApiKeyCredentials.t)
  : Async ConnectionResult.t :=
  try_catch
    (let! data := await (post_connect api ("/platforms/" +:+ platformId +:+ "/connect")
                                 (ApiKeyBody (ApiKeyCredentials.apiKey apiCredentials)
                                             (ApiKeyCredentials.apiSecret apiCredentials))) in
     ret (ConnectionResult.mk
            (BackendConnectionResponse.platform_id data)
            (BackendConnectionResponse.status data)
            (BackendConnectionResponse.message data)))
    (fun error =>
       let! _ := console_error "Failed to connect platform with API key:" error in
       ret (ConnectionResult.mk
              platformId
              Error
              (Some "Invalid API credentials."))).

Definition disconnect (platformId : string) : Async unit :=
  try_catch
    (await (delete api ("/platforms/" +:+ platformId +:+ "/connection")))
    (fun error =>
       let! _ := console_error "Failed to disconnect platform:" error in
       throw error).

(** [platforms.push({ ... })] on the local array. *)
Definition push {A : Type} (arr : list A) (x : A) : list A := (arr ++ [x])%list.

(** [arr.forEach(f)] where [f] updates a local variable of type [S]. *)
Definition forEach {A S : Type} (arr : list A) (f : S -> A -> S) (init : S) : S :=
  foldl f init arr.

Definition getConnectedPlatforms : Async (list Platform.t) :=
  try_catch
    (let! data := await (get_connected api "/platforms/connected") in
     let platforms : list Platform.t := [] in
     let platforms :=
       forEach data (fun platforms item =>
         forEach (Connected.accounts item) (fun platforms account =>
           push platforms
             (Platform.mk (Account.id account)
                          (Account.name account)
                          (BackendPlatform.icon (Connected.platform item))
                          (BackendPlatform.category (Connected.platform item))))
           platforms)
         platforms in
     ret platforms)
    (fun error =>
       let! _ := console_error "Failed to fetch connected platforms:" error in
       ret []).

(** The flattening in the words of the specification: one record per
    account, in payload order; id and name from the account, icon and
    category from the platform above it. *)
Definition account_record (item : Connected.t) (account : Account.t) : Platform.t :=
  Platform.mk (Account.id account) (Account.name account)
              (BackendPlatform.icon (Connected.platform item))
              (BackendPlatform.category (Connected.platform item)).

Definition flatten_spec (data : list Connected.t) : list Platform.t :=
  concat (map (fun item => map (account_record item) (Connected.accounts item)) data).

(** Running an [async] function from an empty console: the settled promise. *)
Definition settle {A : Type} (m : Async A) : Outcome A := fst (m []).

End Service.

Arguments Fulfilled {Err A} a.
Arguments Rejected {Err A} e.
Arguments mkApi {Err Credentials} _ _ _ _ _.
Arguments get_platforms {Err Credentials} _ _.
Arguments post_connect {Err Credentials} _ _ _.
Arguments post_link_token {Err Credentials} _ _.
Arguments delete {Err Credentials} _ _.
Arguments get_connected {Err Credentials} _ _.
Arguments CredentialsBody {Credentials} credentials.
Arguments ApiKeyBody {Credentials} api_key api_secret.
Arguments flatten_spec data : simpl never.
Arguments settle {Err A} m.
Arguments getPlatforms {Err Credentials} api.
Arguments connectWithCredentials {Err Credentials} api platformId credentials.
Arguments connectWithApiKey {Err Credentials} api platformId apiCredentials.
Arguments getConnectedPlatforms {Err Credentials} api.
Arguments getPlaidLinkToken {Err Credentials} api.
Arguments disconnect {Err Credentials} api platformId.

End PlatformService.

(** * Sample environments

    Concrete stores, routes and backends at which the statements below are
    exercised. *)

Module Samples.

Import AuthStore Routing PlatformService.

(** A route table in the shape of [ROUTES]. *)
Definition routes : Routes :=
  {| LOGIN := "/login"; DASHBOARD := "/dashboard"; ONBOARDING := "/onboarding" |}.

(** A signed-in store whose user did not just sign up. *)
Definition signed_in : AuthState string :=
  login (Some "ada") "t0" initialState.

(** A backend that rejects every call. *)
Definition offline : Api string unit :=
  {| get_platforms := fun _ => Rejected "offline";
     post_connect := fun _ _ => Rejected "offline";
     post_link_token := fun _ => Rejected "offline";
     delete := fun _ => Rejected "offline";
     get_connected := fun _ => Rejected "offline" |}.

(** A backend that answers a connect call under an identifier of its own. *)
Definition renaming (Err Credentials : Type) : Api Err Credentials :=
  {| get_platforms := fun _ => Fulfilled [];
     post_connect := fun _ _ =>
       Fulfilled (BackendConnectionResponse.mk "coinbase" Success None (Some "acct-1"));
     post_link_token := fun _ => Fulfilled (LinkToken.mk true "link-token");
     delete := fun _ => Fulfilled tt;
     get_connected := fun _ => Fulfilled [] |}.

End Samples.

(** * Vocabulary for runs of the store and for payloads

    Which action writes which field, read off the recipes of
    [useAuthStore], and the conversion [getPlatforms] applies to each
    backend record. *)

Module Runs.

Import AuthStore.

Section Classes.

Variable User : Type.

Definition is_logout (a : Action User) : bool :=
  match a with Logout => true | _ => false end.

Definition is_completeOnboarding (a : Action User) : bool :=
  match a with CompleteOnboarding => true | _ => false end.

Definition is_setLoading (a : Action User) : bool :=
  match a with SetLoading _ => true | _ => false end.

Definition is_setJustSignedUp (a : Action User) : bool :=
  match a with SetJustSignedUp _ => true | _ => false end.

(** The actions whose recipe assigns none of the four persisted fields. *)
Definition is_transient (a : Action User) : bool :=
  match a with
  | SetLoading _ | SetError _ | ClearError | SetJustSignedUp _ => true
  | _ => false
  end.

End Classes.

Arguments is_logout {User} a.
Arguments is_completeOnboarding {User} a.
Arguments is_setLoading {User} a.
Arguments is_setJustSignedUp {User} a.
Arguments is_transient {User} a.

(** The object literal of [data.map((platform) => ({ ... }))]. *)
Definition to_platform (platform : BackendPlatform.t) : Platform.t :=
  Platform.mk (BackendPlatform.id platform) (BackendPlatform.name platform)
              (BackendPlatform.icon platform) (BackendPlatform.category platform).

(** A backend that lists the given platforms and connected accounts. *)
Definition listing (Err Credentials : Type) (platforms : list BackendPlatform.t)
    (connected : list Connected.t) : PlatformService.Api Err Credentials :=
  {| PlatformService.get_platforms := fun _ => PlatformService.Fulfilled platforms;
     PlatformService.post_connect := fun _ _ =>
       PlatformService.Fulfilled (BackendConnectionResponse.mk "wallet" Success None None);
     PlatformService.post_link_token := fun _ =>
       PlatformService.Fulfilled (LinkToken.mk false "link-token");
     PlatformService.delete := fun _ => PlatformService.Fulfilled tt;
     PlatformService.get_connected := fun _ => PlatformService.Fulfilled connected |}.

(** An operation that absorbs the failure of its backend call: it ends
    fulfilled either way, leaves the console alone when the call was
    fulfilled, and adds the one entry [(msg, error)] when it was rejected. *)
Definition absorbs {Err A B : Type} (m : PlatformService.Async Err A)
    (call : PlatformService.Outcome Err B) (msg : string)
    (log : PlatformService.Console Err) : Prop :=
  match call with
  | PlatformService.Fulfilled _ =>
      exists r, m log = (PlatformService.Fulfilled r, log)
  | PlatformService.Rejected e =>
      exists r, m log = (PlatformService.Fulfilled r, (log ++ [(msg, e)])%list)
  end.

End Runs.

(** * Properties of the session store *)

Section AuthStoreFacts.

Import AuthStore.

Context {User : Type}.

Implicit Types (s : AuthState User) (a : Action User) (acts : list (Action User)).

(** Every action is a single [set]; unfolding it exposes the finished draft. *)
Ltac run_action :=
  unfold dispatch, setUser, setToken, setLoading, setError, login, logout,
    clearError, completeOnboarding, setJustSignedUp, AuthStore.set;
  cbn [foldl].

Lemma setUser_invariant s (u : option User) : auth_invariant (setUser u s).
Proof. reflexivity. Qed.

Lemma login_invariant s (u : User) (t : string) : auth_invariant (login (Some u) t s).
Proof. reflexivity. Qed.

Lemma logout_invariant s : auth_invariant (logout s).
Proof. reflexivity. Qed.

(** One step keeps the invariant, provided a [login] carries a user. *)
Lemma dispatch_invariant a s :
  login_has_user a = true -> auth_invariant s -> auth_invariant (dispatch a s).
Proof.
  unfold auth_invariant.
  destruct a as [u|t|b|e|u t| | | |v]; intros Hu Hs; run_action; cbn;
    try exact Hs; try reflexivity.
  cbn in Hu. symmetry. exact Hu.
Qed.

Lemma initialState_invariant : auth_invariant (@initialState User).
Proof. reflexivity. Qed.

Lemma states_after_invariant acts : forall s,
  forallb login_has_user acts = true ->
  auth_invariant s ->
  Forall auth_invariant (states_after acts s).
Proof.
  induction acts as [|a rest IH]; intros s Hacts Hs; cbn [states_after].
  - constructor.
  - cbn [forallb] in Hacts. apply andb_prop in Hacts as [Ha Hrest].
    pose proof (dispatch_invariant a s Ha Hs) as Hs'.
    constructor; [exact Hs' | apply IH; assumption].
Qed.

(** The last observed state is the state the run ends in. *)
Lemma states_after_last acts : forall s,
  last (s :: states_after acts s) = Some (run acts s).
Proof.
  induction acts as [|a rest IH]; intros s; [reflexivity|].
  cbn [states_after run foldl]. rewrite last_cons.
  specialize (IH (dispatch a s)). unfold run in IH.
  cbn [states_after] in IH. rewrite IH. reflexivity.
Qed.

Lemma run_invariant acts s :
  forallb login_has_user acts = true ->
  auth_invariant s ->
  auth_invariant (run acts s).
Proof.
  revert s. induction acts as [|a rest IH]; intros s Hacts Hs; [exact Hs|].
  cbn [forallb] in Hacts. apply andb_prop in Hacts as [Ha Hrest].
  apply (IH (dispatch a s) Hrest). apply dispatch_invariant; assumption.
Qed.

(** A [login] without a user is what the side condition rules out: it
    leaves the flag set over an absent user. *)
Lemma login_null_user s (t : string) :
  isAuthenticated (login None t s) = true /\ user (login None t s) = None.
Proof. split; reflexivity. Qed.

(** The typed view of a store object undoes [to_object]. *)
Lemma of_object_to_object s : of_object (to_object s) = Some s.
Proof. destruct s as [[u|] [t|] a l [e|] h j]; reflexivity. Qed.

Lemma partialize_dom s : dom (partialize s) = persisted_fields.
Proof.
  unfold partialize, persisted_fields.
  rewrite !dom_insert_L, dom_singleton_L. set_solver.
Qed.

Lemma rehydrate_setItem s (ls : gmap string (gmap string (jsval User))) :
  rehydrate (setItem s ls) = merge (partialize s) (to_object initialState).
Proof.
  unfold rehydrate, setItem. rewrite lookup_insert_eq. reflexivity.
Qed.

(** Merging a snapshot over the defaults, property by property. *)
Lemma merge_partialize_initial s :
  merge (partialize s) (to_object initialState) =
  to_object {| user := user s;
               token := token s;
               isAuthenticated := isAuthenticated s;
               isLoading := false;
               error := None;
               hasCompletedOnboarding := hasCompletedOnboarding s;
               justSignedUp := false |}.
Proof. reflexivity. Qed.

(** C1: from the initial state, along any sequence of store actions in which
    every [login] is given a user, [isAuthenticated] equals [user != null]
    after each action and so at the end of the run; [setUser], [login] and
    [logout] establish it in their one [set] step from whatever state they
    start in. *)
Theorem auth_invariant_after_every_action acts :
  forallb login_has_user acts = true ->
  Forall auth_invariant (states_after acts initialState)
  /\ auth_invariant (run acts initialState)
  /\ (forall s u, auth_invariant (setUser u s))
  /\ (forall s (u : User) t, auth_invariant (login (Some u) t s))
  /\ (forall s, auth_invariant (logout s)).
Proof.
  intros Hacts. split; [|split; [|split; [|split]]].
  - apply states_after_invariant; [exact Hacts | apply initialState_invariant].
  - apply run_invariant; [exact Hacts | apply initialState_invariant].
  - intros s u. apply setUser_invariant.
  - intros s u t. apply login_invariant.
  - intros s. apply logout_invariant.
Qed.

(** C2: [login(u, t)] with a user [u] leaves [isAuthenticated = true],
    [user = u], [token = t], [error = null], and keeps [justSignedUp],
    [hasCompletedOnboarding] and [isLoading] as they were. *)
Theorem login_postcondition s (u : User) (t : string) :
  let s' := login (Some u) t s in
  isAuthenticated s' = true
  /\ user s' = Some u
  /\ token s' = Some t
  /\ error s' = None
  /\ justSignedUp s' = justSignedUp s
  /\ hasCompletedOnboarding s' = hasCompletedOnboarding s
  /\ isLoading s' = isLoading s.
Proof. cbv zeta. repeat split. Qed.

(** C3: [logout()] yields the initial defaults in every field but
    [isLoading], which keeps its value. *)
Theorem logout_resets_all_but_isLoading s :
  logout s = assign_isLoading (isLoading s) initialState
  /\ user (logout s) = None
  /\ token (logout s) = None
  /\ isAuthenticated (logout s) = false
  /\ error (logout s) = None
  /\ hasCompletedOnboarding (logout s) = false
  /\ justSignedUp (logout s) = false
  /\ isLoading (logout s) = isLoading s.
Proof. repeat split. Qed.

(** C4: the snapshot written to storage has exactly the properties [user],
    [token], [isAuthenticated] and [hasCompletedOnboarding]; loading it back
    over the defaults gives a store with those four values as they were
    saved and with [isLoading], [error] and [justSignedUp] at their initial
    values, whatever they were when the snapshot was taken. *)
Theorem persisted_subset_round_trip s (ls : gmap string (gmap string (jsval User))) :
  dom (partialize s) = persisted_fields
  /\ setItem s ls !! storage_name = Some (partialize s)
  /\ of_object (rehydrate (setItem s ls)) =
       Some {| user := user s;
               token := token s;
               isAuthenticated := isAuthenticated s;
               isLoading := isLoading (@initialState User);
               error := error (@initialState User);
               hasCompletedOnboarding := hasCompletedOnboarding s;
               justSignedUp := justSignedUp (@initialState User) |}.
Proof.
  split; [apply partialize_dom|]. split.
  - unfold setItem. apply lookup_insert_eq.
  - rewrite rehydrate_setItem, merge_partialize_initial.
    apply of_object_to_object.
Qed.

End AuthStoreFacts.

(** C1 at a run that logs in, toggles the spinner, drops the user and logs
    out. *)
Lemma auth_invariant_after_every_action_witness :
  let acts := [AuthStore.Login (Some "ada") "t0"; AuthStore.SetLoading true;
               AuthStore.SetUser None; AuthStore.Logout] in
  forallb AuthStore.login_has_user acts = true
  /\ Forall AuthStore.auth_invariant (AuthStore.states_after acts AuthStore.initialState).
Proof.
  cbv zeta. split; [reflexivity|].
  apply (@auth_invariant_after_every_action string). reflexivity.
Defined.

(** * Properties of the route guards *)

Section RoutingFacts.

Import AuthStore Routing.

Context {User ReactNode : Type}.
Variable ROUTES : Routes.

Implicit Types (store : AuthState User) (location : Location)
  (children : ReactNode) (redirectTo : option string).

Lemma or_str_present (url fallback : string) :
  url <> "" -> or_str (Some url) fallback = url.
Proof.
  intros Hne. unfold or_str, truthy_str.
  destruct (String.eqb_spec url ""); [contradiction | reflexivity].
Qed.

Lemma or_str_empty (fallback : string) : or_str (Some "") fallback = fallback.
Proof. reflexivity. Qed.

Lemma or_str_absent (fallback : string) : or_str None fallback = fallback.
Proof. reflexivity. Qed.

(** C5: an unauthenticated visitor of a protected route is sent to
    [redirectTo] (the login route unless given), with [{from: current path}]
    as navigation state and replacing the history entry; an authenticated one
    gets the children as they are. Nothing but the authentication flag and
    the current path enters the decision. *)
Theorem protected_route_decision children redirectTo store location :
  (isAuthenticated store = false ->
     ProtectedRoute ROUTES children redirectTo store location =
     Navigate (default (LOGIN ROUTES) redirectTo)
              (Some {| from := Some (pathname location) |}) true)
  /\ (isAuthenticated store = true ->
        ProtectedRoute ROUTES children redirectTo store location = Children children)
  /\ (forall store' location',
        isAuthenticated store' = isAuthenticated store ->
        pathname location' = pathname location ->
        ProtectedRoute ROUTES children redirectTo store' location' =
        ProtectedRoute ROUTES children redirectTo store location).
Proof.
  unfold ProtectedRoute, selectIsAuthenticated. split; [|split].
  - intros ->. reflexivity.
  - intros ->. reflexivity.
  - intros store' location' -> ->. reflexivity.
Qed.

(** C6, as the code has it: a signed-in visitor who just signed up goes to
    the onboarding route whatever return-url is there; otherwise to the
    return-url when the navigation state carries a non-empty one, and to
    [redirectTo] (the dashboard route unless given) when it carries none or
    an empty one; always replacing the history entry. A visitor who is not
    signed in gets the children as they are. *)
Theorem public_only_route_decision children redirectTo store location :
  (isAuthenticated store = true -> justSignedUp store = true ->
     PublicOnlyRoute ROUTES children redirectTo store location =
     Navigate (ONBOARDING ROUTES) None true)
  /\ (isAuthenticated store = true -> justSignedUp store = false ->
      forall url, state_from location = Some url -> url <> "" ->
        PublicOnlyRoute ROUTES children redirectTo store location =
        Navigate url None true)
  /\ (isAuthenticated store = true -> justSignedUp store = false ->
      state_from location = None \/ state_from location = Some "" ->
        PublicOnlyRoute ROUTES children redirectTo store location =
        Navigate (default (DASHBOARD ROUTES) redirectTo) None true)
  /\ (isAuthenticated store = false ->
        PublicOnlyRoute ROUTES children redirectTo store location = Children children).
Proof.
  unfold PublicOnlyRoute, selectIsAuthenticated. split; [|split; [|split]].
  - intros -> ->. reflexivity.
  - intros -> -> url -> Hne. rewrite or_str_present by exact Hne. reflexivity.
  - intros -> -> [-> | ->]; reflexivity.
  - intros ->. reflexivity.
Qed.

End RoutingFacts.

(** The protected guard at [/accounts] for a visitor who is not signed in. *)
Example protected_route_accounts :
  Routing.ProtectedRoute Samples.routes tt None
    (@AuthStore.initialState string)
    {| Routing.pathname := "/accounts"; Routing.state := None |} =
  Routing.Navigate "/login" (Some {| Routing.from := Some "/accounts" |}) true.
Proof. reflexivity. Qed.

(** The public-only guard with return-url [/custom], and with none. *)
Example public_only_route_custom :
  Routing.PublicOnlyRoute Samples.routes tt None Samples.signed_in
    {| Routing.pathname := "/login";
       Routing.state := Some {| Routing.from := Some "/custom" |} |} =
  Routing.Navigate "/custom" None true
  /\ Routing.PublicOnlyRoute Samples.routes tt None Samples.signed_in
       {| Routing.pathname := "/login"; Routing.state := None |} =
     Routing.Navigate "/dashboard" None true.
Proof. split; reflexivity. Qed.

(** C6 as stated fails when the navigation state carries the empty string as
    its return-url: the return-url is present, yet the guard redirects to
    [redirectTo] and not to it. *)
Lemma public_only_route_empty_return_url :
  let location :=
    {| Routing.pathname := "/login";
       Routing.state := Some {| Routing.from := Some "" |} |} in
  AuthStore.isAuthenticated Samples.signed_in = true
  /\ AuthStore.justSignedUp Samples.signed_in = false
  /\ Routing.state_from location = Some ""
  /\ Routing.PublicOnlyRoute Samples.routes tt (Some "/dashboard")
       Samples.signed_in location =
     Routing.Navigate "/dashboard" None true
  /\ Routing.PublicOnlyRoute Samples.routes tt (Some "/dashboard")
       Samples.signed_in location <>
     Routing.Navigate "" None true.
Proof. cbv zeta. repeat split. discriminate. Qed.

(** * Properties of the connection workflow *)

Section PlatformServiceFacts.

Import PlatformService.

Context {Err Credentials : Type}.

Implicit Types (api : Api Err Credentials) (log : Console Err)
  (platformId : string) (credentials : Credentials)
  (apiCredentials : ApiKeyCredentials.t).

(** Unfolding an [async] body down to the settled promise and the console. *)
Ltac settle_with H :=
  unfold getPlatforms, connectWithCredentials, connectWithApiKey,
    getConnectedPlatforms, try_catch, bind, await, console_error, ret;
  rewrite H; cbn.

(** [forEach] with [push] appends the images in order. *)
Lemma forEach_push {A B : Type} (f : A -> B) (l : list A) : forall acc : list B,
  forEach l (fun acc x => push acc (f x)) acc = (acc ++ map f l)%list.
Proof.
  unfold forEach, push.
  induction l as [|x l IH]; intros acc; cbn [foldl map].
  - rewrite app_nil_r. reflexivity.
  - rewrite IH, <- app_assoc. reflexivity.
Qed.

(** The two nested loops of [getConnectedPlatforms] compute the flattening. *)
Lemma nested_forEach_flatten (data : list Connected.t) : forall acc : list Platform.t,
  forEach data (fun platforms item =>
    forEach (Connected.accounts item) (fun platforms account =>
      push platforms
        (Platform.mk (Account.id account) (Account.name account)
                     (BackendPlatform.icon (Connected.platform item))
                     (BackendPlatform.category (Connected.platform item))))
      platforms) acc
  = (acc ++ flatten_spec data)%list.
Proof.
  unfold flatten_spec.
  induction data as [|item data IH]; intros acc.
  - cbn. rewrite app_nil_r. reflexivity.
  - unfold forEach at 1. cbn [foldl]. fold (@forEach Connected.t (list Platform.t)).
    rewrite (forEach_push (account_record item)).
    unfold forEach at 1 in IH. rewrite IH.
    cbn [map concat]. rewrite app_assoc. reflexivity.
Qed.

Lemma flatten_spec_length (data : list Connected.t) :
  length (flatten_spec data) = sum_list (map (fun item => length (Connected.accounts item)) data).
Proof.
  unfold flatten_spec. induction data as [|item data IH]; [reflexivity|].
  cbn [map concat sum_list]. rewrite length_app, length_map, IH. reflexivity.
Qed.

Lemma flatten_spec_elem (data : list Connected.t) (r : Platform.t) :
  r ∈ flatten_spec data <->
  exists item account,
    item ∈ data /\ account ∈ Connected.accounts item /\ r = account_record item account.
Proof.
  unfold flatten_spec. rewrite list_elem_of_In, in_concat. split.
  - intros (l & Hl & Hr). apply in_map_iff in Hl as (item & <- & Hitem).
    apply in_map_iff in Hr as (account & <- & Haccount).
    exists item, account. split; [|split].
    + apply list_elem_of_In. exact Hitem.
    + apply list_elem_of_In. exact Haccount.
    + reflexivity.
  - intros (item & account & Hitem & Haccount & ->).
    apply list_elem_of_In in Hitem. apply list_elem_of_In in Haccount.
    exists (map (account_record item) (Connected.accounts item)). split.
    + apply in_map_iff. eauto.
    + apply in_map. exact Haccount.
Qed.

(** The success path of the two connect calls copies the response over. *)
Lemma connectWithCredentials_fulfilled api platformId credentials log data :
  post_connect api ("/platforms/" +:+ platformId +:+ "/connect")
    (CredentialsBody credentials) = Fulfilled data ->
  (connectWithCredentials api platformId credentials log).1 =
  Fulfilled (ConnectionResult.mk (BackendConnectionResponse.platform_id data)
                                 (BackendConnectionResponse.status data)
                                 (BackendConnectionResponse.message data)).
Proof. intros H. settle_with H. reflexivity. Qed.

Lemma connectWithCredentials_rejected api platformId credentials log e :
  post_connect api ("/platforms/" +:+ platformId +:+ "/connect")
    (CredentialsBody credentials) = Rejected e ->
  (connectWithCredentials api platformId credentials log).1 =
  Fulfilled (ConnectionResult.mk platformId Error
               (Some "Failed to connect. Please check your credentials.")).
Proof. intros H. settle_with H. reflexivity. Qed.

Lemma connectWithApiKey_fulfilled api platformId apiCredentials log data :
  post_connect api ("/platforms/" +:+ platformId +:+ "/connect")
    (ApiKeyBody (ApiKeyCredentials.apiKey apiCredentials)
                (ApiKeyCredentials.apiSecret apiCredentials)) = Fulfilled data ->
  (connectWithApiKey api platformId apiCredentials log).1 =
  Fulfilled (ConnectionResult.mk (BackendConnectionResponse.platform_id data)
                                 (BackendConnectionResponse.status data)
                                 (BackendConnectionResponse.message data)).
Proof. intros H. settle_with H. reflexivity. Qed.

Lemma connectWithApiKey_rejected api platformId apiCredentials log e :
  post_connect api ("/platforms/" +:+ platformId +:+ "/connect")
    (ApiKeyBody (ApiKeyCredentials.apiKey apiCredentials)
                (ApiKeyCredentials.apiSecret apiCredentials)) = Rejected e ->
  (connectWithApiKey api platformId apiCredentials log).1 =
  Fulfilled (ConnectionResult.mk platformId Error (Some "Invalid API credentials.")).
Proof. intros H. settle_with H. reflexivity. Qed.

(** A failure is logged once, after whatever the console already held. *)
Lemma connectWithCredentials_logs api platformId credentials log e :
  post_connect api ("/platforms/" +:+ platformId +:+ "/connect")
    (CredentialsBody credentials) = Rejected e ->
  (connectWithCredentials api platformId credentials log).2 =
  (log ++ [("Failed to connect platform:", e)])%list.
Proof. intros H. settle_with H. reflexivity. Qed.

(** C7: [connectWithCredentials] and [connectWithApiKey] always end
    fulfilled, whatever the arguments and whatever the backend does; when the
    backend call is rejected the result is the input [platformId] with
    status [error] and the message of that function. *)
Theorem connect_never_raises api platformId credentials apiCredentials log :
  (exists r, (connectWithCredentials api platformId credentials log).1 = Fulfilled r)
  /\ (exists r, (connectWithApiKey api platformId apiCredentials log).1 = Fulfilled r)
  /\ (forall e,
        post_connect api ("/platforms/" +:+ platformId +:+ "/connect")
          (CredentialsBody credentials) = Rejected e ->
        (connectWithCredentials api platformId credentials log).1 =
        Fulfilled (ConnectionResult.mk platformId Error
                     (Some "Failed to connect. Please check your credentials.")))
  /\ (forall e,
        post_connect api ("/platforms/" +:+ platformId +:+ "/connect")
          (ApiKeyBody (ApiKeyCredentials.apiKey apiCredentials)
                      (ApiKeyCredentials.apiSecret apiCredentials)) = Rejected e ->
        (connectWithApiKey api platformId apiCredentials log).1 =
        Fulfilled (ConnectionResult.mk platformId Error
                     (Some "Invalid API credentials."))).
Proof.
  split; [|split; [|split]].
  - destruct (post_connect api ("/platforms/" +:+ platformId +:+ "/connect")
                (CredentialsBody credentials)) as [data|e] eqn:H.
    + eexists. apply connectWithCredentials_fulfilled. exact H.
    + eexists. eapply connectWithCredentials_rejected. exact H.
  - destruct (post_connect api ("/platforms/" +:+ platformId +:+ "/connect")
                (ApiKeyBody (ApiKeyCredentials.apiKey apiCredentials)
                            (ApiKeyCredentials.apiSecret apiCredentials)))
      as [data|e] eqn:H.
    + eexists. apply connectWithApiKey_fulfilled. exact H.
    + eexists. eapply connectWithApiKey_rejected. exact H.
  - intros e H. eapply connectWithCredentials_rejected. exact H.
  - intros e H. eapply connectWithApiKey_rejected. exact H.
Qed.

(** C8: when the call behind [getPlatforms] is rejected, the function still
    ends fulfilled, with the fixed groups: the default wallet alone under
    [crypto], the default Plaid entry alone under [banks], nothing under
    [brokers]. *)
Theorem getPlatforms_fallback api log e :
  get_platforms api "/platforms" = Rejected e ->
  exists groups,
    (getPlatforms api log).1 = Fulfilled groups
    /\ Groups.crypto groups = [Platform.mk "wallet" "Wallet" "/wallet.svg" Crypto]
    /\ Groups.banks groups = [Platform.mk "plaid" "Plaid" "/plaid.svg" Bank]
    /\ Groups.brokers groups = [].
Proof.
  intros H. eexists. split.
  - settle_with H. reflexivity.
  - cbn. repeat split.
Qed.

(** C9: [getConnectedPlatforms] turns the payload into one record per
    account, in payload order, with the account's id and name and the icon
    and category of the platform the account is listed under; a platform
    with two accounts gives two such records; a rejected call gives the
    empty sequence. *)
Theorem getConnectedPlatforms_flattens api log :
  (forall data,
     get_connected api "/platforms/connected" = Fulfilled data ->
     (getConnectedPlatforms api log).1 = Fulfilled (flatten_spec data)
     /\ length (flatten_spec data) =
        sum_list (map (fun item => length (Connected.accounts item)) data)
     /\ (forall r, r ∈ flatten_spec data <->
           exists item account,
             item ∈ data /\ account ∈ Connected.accounts item
             /\ Platform.id r = Account.id account
             /\ Platform.name r = Account.name account
             /\ Platform.icon r = BackendPlatform.icon (Connected.platform item)
             /\ Platform.category r = BackendPlatform.category (Connected.platform item)))
  /\ (forall p a1 a2,
        get_connected api "/platforms/connected" =
          Fulfilled [Connected.mk p [a1; a2]] ->
        (getConnectedPlatforms api log).1 =
        Fulfilled [Platform.mk (Account.id a1) (Account.name a1)
                               (BackendPlatform.icon p) (BackendPlatform.category p);
                   Platform.mk (Account.id a2) (Account.name a2)
                               (BackendPlatform.icon p) (BackendPlatform.category p)])
  /\ (forall e,
        get_connected api "/platforms/connected" = Rejected e ->
        (getConnectedPlatforms api log).1 = Fulfilled []).
Proof.
  split; [|split].
  - intros data H. split; [|split].
    + settle_with H. rewrite nested_forEach_flatten. reflexivity.
    + apply flatten_spec_length.
    + intros r. rewrite flatten_spec_elem. split.
      * intros (item & account & Hitem & Haccount & ->).
        exists item, account. cbn. auto 10.
      * intros (item & account & Hitem & Haccount & Hid & Hname & Hicon & Hcat).
        exists item, account. split; [exact Hitem|]. split; [exact Haccount|].
        destruct r as [i n ic c]. cbn in *. subst. reflexivity.
  - intros p a1 a2 H. settle_with H. reflexivity.
  - intros e H. settle_with H. reflexivity.
Qed.

(** C10: when the connect call is fulfilled, the result's [platformId] is
    the response's [platform_id], which a backend may choose different from
    the argument; when it is rejected, the result's [platformId] is the
    argument. *)
Theorem platformId_comes_from_response api platformId credentials apiCredentials log :
  (forall data,
     post_connect api ("/platforms/" +:+ platformId +:+ "/connect")
       (CredentialsBody credentials) = Fulfilled data ->
     exists r, (connectWithCredentials api platformId credentials log).1 = Fulfilled r
       /\ ConnectionResult.platformId r = BackendConnectionResponse.platform_id data)
  /\ (forall data,
        post_connect api ("/platforms/" +:+ platformId +:+ "/connect")
          (ApiKeyBody (ApiKeyCredentials.apiKey apiCredentials)
                      (ApiKeyCredentials.apiSecret apiCredentials)) = Fulfilled data ->
        exists r, (connectWithApiKey api platformId apiCredentials log).1 = Fulfilled r
          /\ ConnectionResult.platformId r = BackendConnectionResponse.platform_id data)
  /\ (exists r,
        (connectWithCredentials (Samples.renaming Err Credentials) "binance"
           credentials log).1 = Fulfilled r
        /\ ConnectionResult.platformId r <> "binance")
  /\ (exists r,
        (connectWithApiKey (Samples.renaming Err Credentials) "binance"
           apiCredentials log).1 = Fulfilled r
        /\ ConnectionResult.platformId r <> "binance")
  /\ (forall e,
        post_connect api ("/platforms/" +:+ platformId +:+ "/connect")
          (CredentialsBody credentials) = Rejected e ->
        exists r, (connectWithCredentials api platformId credentials log).1 = Fulfilled r
          /\ ConnectionResult.platformId r = platformId)
  /\ (forall e,
        post_connect api ("/platforms/" +:+ platformId +:+ "/connect")
          (ApiKeyBody (ApiKeyCredentials.apiKey apiCredentials)
                      (ApiKeyCredentials.apiSecret apiCredentials)) = Rejected e ->
        exists r, (connectWithApiKey api platformId apiCredentials log).1 = Fulfilled r
          /\ ConnectionResult.platformId r = platformId).
Proof.
  split; [|split; [|split; [|split; [|split]]]].
  - intros data H. eexists. split.
    + apply connectWithCredentials_fulfilled. exact H.
    + reflexivity.
  - intros data H. eexists. split.
    + apply connectWithApiKey_fulfilled. exact H.
    + reflexivity.
  - eexists. split; [reflexivity | discriminate].
  - eexists. split; [reflexivity | discriminate].
  - intros e H. eexists. split.
    + eapply connectWithCredentials_rejected. exact H.
    + reflexivity.
  - intros e H. eexists. split.
    + eapply connectWithApiKey_rejected. exact H.
    + reflexivity.
Qed.

End PlatformServiceFacts.

(** C8 at a backend that is offline. *)
Lemma getPlatforms_fallback_witness :
  PlatformService.get_platforms Samples.offline "/platforms" =
    PlatformService.Rejected "offline"
  /\ exists groups,
       (PlatformService.getPlatforms Samples.offline []).1 =
         PlatformService.Fulfilled groups
       /\ Groups.crypto groups = [Platform.mk "wallet" "Wallet" "/wallet.svg" Crypto]
       /\ Groups.banks groups = [Platform.mk "plaid" "Plaid" "/plaid.svg" Bank]
       /\ Groups.brokers groups = [].
Proof.
  split; [reflexivity|].
  apply (getPlatforms_fallback Samples.offline [] "offline"). reflexivity.
Defined.

(** One platform with two accounts, through the whole function. *)
Example getConnectedPlatforms_two_accounts :
  let kraken := BackendPlatform.mk "kraken" "Kraken" "/kraken.svg" Crypto in
  let api : PlatformService.Api string unit :=
    {| PlatformService.get_platforms := fun _ => PlatformService.Fulfilled [];
       PlatformService.post_connect := fun _ _ => PlatformService.Rejected "unused";
       PlatformService.post_link_token := fun _ => PlatformService.Rejected "unused";
       PlatformService.delete := fun _ => PlatformService.Fulfilled tt;
       PlatformService.get_connected := fun _ =>
         PlatformService.Fulfilled
           [Connected.mk kraken [Account.mk "a1" "Spot" None None;
                                 Account.mk "a2" "Futures" (Some "2024-01-01") None]] |} in
  PlatformService.settle (PlatformService.getConnectedPlatforms api) =
  PlatformService.Fulfilled [Platform.mk "a1" "Spot" "/kraken.svg" Crypto;
                             Platform.mk "a2" "Futures" "/kraken.svg" Crypto].
Proof. reflexivity. Qed.

(** Both connect calls against a backend that is offline. *)
Example connect_offline :
  PlatformService.settle
    (PlatformService.connectWithCredentials Samples.offline "binance" tt) =
  PlatformService.Fulfilled
    (ConnectionResult.mk "binance" Error
       (Some "Failed to connect. Please check your credentials."))
  /\ PlatformService.settle
       (PlatformService.connectWithApiKey Samples.offline "binance"
          (ApiKeyCredentials.mk "key" "secret")) =
     PlatformService.Fulfilled
       (ConnectionResult.mk "binance" Error (Some "Invalid API credentials.")).
Proof. split; reflexivity. Qed.

(** [disconnect], by contrast, logs and rethrows. *)
Example disconnect_offline :
  PlatformService.settle (PlatformService.disconnect Samples.offline "binance") =
  PlatformService.Rejected "offline".
Proof. reflexivity. Qed.

(** A store wired to its storage reloads to the persisted part of the state
    its last action left. *)
Lemma persisted_dispatch_reload {User : Type} (a : AuthStore.Action User)
    (st : AuthStore.AuthState User * gmap string (gmap string (AuthStore.jsval User))) :
  AuthStore.rehydrate (AuthStore.persisted_dispatch a st).2 =
  AuthStore.merge (AuthStore.partialize (AuthStore.dispatch a st.1))
                  (AuthStore.to_object AuthStore.initialState).
Proof.
  unfold AuthStore.persisted_dispatch, AuthStore.rehydrate, AuthStore.setItem.
  cbn [snd fst]. rewrite lookup_insert_eq. reflexivity.
Qed.

(** A session that set every transient field, saved and reloaded. *)
Example reload_drops_transient_fields :
  let s : AuthStore.AuthState string :=
    AuthStore.run [AuthStore.Login (Some "ada") "t0"; AuthStore.CompleteOnboarding;
                   AuthStore.SetJustSignedUp true; AuthStore.SetLoading true;
                   AuthStore.SetError (Some "boom")] AuthStore.initialState in
  AuthStore.of_object (AuthStore.rehydrate (AuthStore.setItem s ∅)) =
  Some (AuthStore.mkAuthState (Some "ada") (Some "t0") true false None true false).
Proof. reflexivity. Qed.

(** * Further properties of the session store *)

Section AuthStoreRuns.

Import AuthStore Runs.

Context {User : Type}.

Implicit Types (s : AuthState User) (a : Action User) (acts : list (Action User)).

Lemma run_cons a acts s : run (a :: acts) s = run acts (dispatch a s).
Proof. reflexivity. Qed.

Lemma run_app acts1 acts2 s : run (acts1 ++ acts2) s = run acts2 (run acts1 s).
Proof. unfold run. apply foldl_app. Qed.

(** X1: [hasCompletedOnboarding] is sticky. Along a run without [logout]
    it is set at the end exactly when it was set at the start or the run
    contains [completeOnboarding]; no other action writes it. *)
Theorem onboarding_flag_sticky acts : forall s,
  existsb is_logout acts = false ->
  hasCompletedOnboarding (run acts s) =
  hasCompletedOnboarding s || existsb is_completeOnboarding acts.
Proof.
  induction acts as [|a rest IH]; intros s Hno.
  - cbn. rewrite orb_false_r. reflexivity.
  - cbn [existsb] in Hno. apply orb_false_elim in Hno as [Ha Hrest].
    rewrite run_cons, (IH _ Hrest). cbn [existsb].
    destruct a; try discriminate Ha; cbn;
      try reflexivity.
    rewrite orb_true_r. reflexivity.
Qed.

(** X2: only [setLoading] writes [isLoading]. A run without it, be it
    through [login] and [logout], leaves the flag as it was. *)
Theorem isLoading_only_by_setLoading acts : forall s,
  existsb is_setLoading acts = false ->
  isLoading (run acts s) = isLoading s.
Proof.
  induction acts as [|a rest IH]; intros s Hno; [reflexivity|].
  cbn [existsb] in Hno. apply orb_false_elim in Hno as [Ha Hrest].
  rewrite run_cons, (IH _ Hrest).
  destruct a; try discriminate Ha; reflexivity.
Qed.

Lemma justSignedUp_run acts : forall s,
  existsb is_setJustSignedUp acts = false ->
  justSignedUp (run acts s) = justSignedUp s && negb (existsb is_logout acts).
Proof.
  induction acts as [|a rest IH]; intros s Hno.
  - cbn. rewrite andb_true_r. reflexivity.
  - cbn [existsb] in Hno. apply orb_false_elim in Hno as [Ha Hrest].
    rewrite run_cons, (IH _ Hrest). cbn [existsb].
    destruct a; try discriminate Ha; cbn; try reflexivity.
    rewrite andb_false_r. reflexivity.
Qed.

(** X3: the store never raises [justSignedUp] by itself and only [logout]
    lowers it. Along a run without [setJustSignedUp] the flag ends set
    exactly when it started set and the run has no [logout]; [login] in
    particular keeps it. *)
Theorem justSignedUp_only_cleared_by_logout acts s :
  existsb is_setJustSignedUp acts = false ->
  justSignedUp (run acts s) = justSignedUp s && negb (existsb is_logout acts).
Proof. apply justSignedUp_run. Qed.

Lemma transient_partialize a s :
  is_transient a = true -> partialize (dispatch a s) = partialize s.
Proof. destruct a; intros Ha; try discriminate Ha; reflexivity. Qed.

(** X4: actions that write only [isLoading], [error] or [justSignedUp] do
    not change what is persisted: after any run of [setLoading],
    [setError], [clearError] and [setJustSignedUp] the snapshot, and so the
    stored entry, is the one of the starting state. *)
Theorem transient_actions_keep_snapshot acts : forall s,
  forallb is_transient acts = true ->
  partialize (run acts s) = partialize s
  /\ forall ls, setItem (run acts s) ls = setItem s ls.
Proof.
  induction acts as [|a rest IH]; intros s Hacts.
  - split; reflexivity.
  - cbn [forallb] in Hacts. apply andb_prop in Hacts as [Ha Hrest].
    rewrite run_cons. destruct (IH (dispatch a s) Hrest) as [Hp _].
    rewrite Hp, (transient_partialize a s Ha). split; [reflexivity|].
    intros ls. unfold setItem. rewrite Hp, (transient_partialize a s Ha).
    reflexivity.
Qed.

End AuthStoreRuns.

(** X1 at a run that completes onboarding, signs in and drops the user. *)
Lemma onboarding_flag_sticky_witness :
  let acts := [AuthStore.CompleteOnboarding; AuthStore.Login (Some "ada") "t0";
               AuthStore.SetUser None] in
  existsb Runs.is_logout acts = false
  /\ AuthStore.hasCompletedOnboarding (AuthStore.run acts AuthStore.initialState) = true.
Proof.
  cbv zeta. split; [reflexivity|].
  rewrite (@onboarding_flag_sticky string); reflexivity.
Defined.

(** X2 at a run that signs in and out while a request is in flight. *)
Lemma isLoading_only_by_setLoading_witness :
  let acts := [AuthStore.Login (Some "ada") "t0"; AuthStore.SetError (Some "boom");
               AuthStore.Logout] in
  let s := AuthStore.setLoading true (@AuthStore.initialState string) in
  existsb Runs.is_setLoading acts = false
  /\ AuthStore.isLoading (AuthStore.run acts s) = true.
Proof.
  cbv zeta. split; [reflexivity|].
  rewrite (@isLoading_only_by_setLoading string); reflexivity.
Defined.

(** X3 at a sign-up followed by a login and a token refresh. *)
Lemma justSignedUp_only_cleared_by_logout_witness :
  let acts := [AuthStore.Login (Some "ada") "t0"; AuthStore.SetToken (Some "t1");
               AuthStore.CompleteOnboarding] in
  let s := AuthStore.setJustSignedUp true (@AuthStore.initialState string) in
  existsb Runs.is_setJustSignedUp acts = false
  /\ AuthStore.justSignedUp (AuthStore.run acts s) = true.
Proof.
  cbv zeta. split; [reflexivity|].
  rewrite (@justSignedUp_only_cleared_by_logout string); reflexivity.
Defined.

(** X4 at a burst of spinner and error updates on a signed-in store. *)
Lemma transient_actions_keep_snapshot_witness :
  let acts := [AuthStore.SetLoading true; AuthStore.SetError (Some "boom");
               AuthStore.SetJustSignedUp true; AuthStore.ClearError;
               AuthStore.SetLoading false] in
  forallb Runs.is_transient acts = true
  /\ AuthStore.partialize (AuthStore.run acts Samples.signed_in) =
     AuthStore.partialize Samples.signed_in.
Proof.
  cbv zeta. split; [reflexivity|].
  apply (@transient_actions_keep_snapshot string). reflexivity.
Defined.

(** * The guards over the store *)

Section GuardRuns.

Import AuthStore Runs Routing.

Context {User ReactNode : Type}.
Variable ROUTES : Routes.

Implicit Types (s store : AuthState User) (location : Location)
  (children : ReactNode) (redirectTo : option string)
  (acts : list (Action User)).

(** X5: on one store and one location the two guards never both render
    and never both redirect: either the protected guard renders and the
    public-only guard redirects (replacing history, passing no navigation
    state on), or the public-only guard renders and the protected guard
    redirects. *)
Theorem guards_complementary children children' redirectTo redirectTo' store location :
  (ProtectedRoute ROUTES children redirectTo store location = Children children
   /\ exists to,
        PublicOnlyRoute ROUTES children' redirectTo' store location =
        Navigate to None true)
  \/ (PublicOnlyRoute ROUTES children' redirectTo' store location = Children children'
      /\ ProtectedRoute ROUTES children redirectTo store location =
         Navigate (default (LOGIN ROUTES) redirectTo)
                  (Some {| from := Some (pathname location) |}) true).
Proof.
  unfold ProtectedRoute, PublicOnlyRoute, selectIsAuthenticated.
  destruct (isAuthenticated store); cbn.
  - left. split; [reflexivity|]. destruct (justSignedUp store); eexists; reflexivity.
  - right. split; reflexivity.
Qed.

(** X6: the return-url survives the detour through the login page. What
    the protected guard hands to a visitor at a non-empty path, taken as
    the location of the public-only guard once the visitor is signed in
    (and did not just sign up), leads back to that path, where the
    protected guard now renders. *)
Theorem return_url_round_trip children children' redirectTo redirectTo'
    (visitor member : AuthState User) location :
  isAuthenticated visitor = false ->
  isAuthenticated member = true ->
  justSignedUp member = false ->
  pathname location <> "" ->
  exists to st,
    ProtectedRoute ROUTES children redirectTo visitor location = Navigate to st true
    /\ PublicOnlyRoute ROUTES children' redirectTo' member
         {| pathname := to; state := st |} =
       Navigate (pathname location) None true
    /\ ProtectedRoute ROUTES children redirectTo member
         {| pathname := pathname location; state := None |} = Children children.
Proof.
  intros Hv Hm Hj Hp.
  exists (default (LOGIN ROUTES) redirectTo), (Some {| from := Some (pathname location) |}).
  unfold ProtectedRoute, PublicOnlyRoute, selectIsAuthenticated.
  rewrite Hv, Hm, Hj. unfold state_from. cbn [negb state from pathname].
  rewrite or_str_present by exact Hp. auto.
Qed.

(** X7: the onboarding redirect does not expire. From a state with
    [justSignedUp] set, after any run without [setJustSignedUp] and
    without [logout] that ends signed in, the public-only guard still
    sends the visitor to the onboarding route, whatever return-url the
    location carries. *)
Theorem onboarding_redirect_until_cleared acts s children redirectTo location :
  justSignedUp s = true ->
  existsb is_setJustSignedUp acts = false ->
  existsb is_logout acts = false ->
  isAuthenticated (run acts s) = true ->
  PublicOnlyRoute ROUTES children redirectTo (run acts s) location =
  Navigate (ONBOARDING ROUTES) None true.
Proof.
  intros Hj Hset Hout Hauth.
  unfold PublicOnlyRoute, selectIsAuthenticated.
  rewrite Hauth, (justSignedUp_run acts s Hset), Hj, Hout. reflexivity.
Qed.

(** X8: along any run from the initial state in which every [login] is
    given a user, the protected guard renders its children exactly when
    the store holds a user, and redirects when it holds none. *)
Theorem protected_content_needs_user acts children redirectTo location :
  forallb login_has_user acts = true ->
  (is_Some (user (run acts initialState)) ->
     ProtectedRoute ROUTES children redirectTo (run acts initialState) location =
     Children children)
  /\ (user (run acts initialState) = None ->
        ProtectedRoute ROUTES children redirectTo (run acts initialState) location =
        Navigate (default (LOGIN ROUTES) redirectTo)
                 (Some {| from := Some (pathname location) |}) true).
Proof.
  intros Hacts.
  pose proof (run_invariant acts initialState Hacts initialState_invariant) as Hinv.
  unfold auth_invariant in Hinv.
  unfold ProtectedRoute, selectIsAuthenticated. rewrite Hinv. split.
  - intros [u ->]. reflexivity.
  - intros ->. reflexivity.
Qed.


End GuardRuns.

(** X6 at a visitor of [/accounts] who then signs in. *)
Lemma return_url_round_trip_witness :
  let location := {| Routing.pathname := "/accounts"; Routing.state := None |} in
  exists to st,
    Routing.ProtectedRoute Samples.routes tt None (@AuthStore.initialState string)
      location = Routing.Navigate to st true
    /\ Routing.PublicOnlyRoute Samples.routes tt None Samples.signed_in
         {| Routing.pathname := to; Routing.state := st |} =
       Routing.Navigate "/accounts" None true
    /\ Routing.ProtectedRoute Samples.routes tt None Samples.signed_in
         {| Routing.pathname := "/accounts"; Routing.state := None |} =
       Routing.Children tt.
Proof.
  cbv zeta.
  apply (@return_url_round_trip string unit Samples.routes tt tt None None
           AuthStore.initialState Samples.signed_in
           {| Routing.pathname := "/accounts"; Routing.state := None |});
    [reflexivity | reflexivity | reflexivity | discriminate].
Defined.

(** X7 at a sign-up whose flag nobody cleared before the token refresh. *)
Lemma onboarding_redirect_until_cleared_witness :
  let acts := [AuthStore.Login (Some "ada") "t0"; AuthStore.SetToken (Some "t1")] in
  let s := AuthStore.setJustSignedUp true (@AuthStore.initialState string) in
  Routing.PublicOnlyRoute Samples.routes tt None (AuthStore.run acts s)
    {| Routing.pathname := "/login";
       Routing.state := Some {| Routing.from := Some "/accounts" |} |} =
  Routing.Navigate "/onboarding" None true.
Proof.
  cbv zeta.
  apply (@onboarding_redirect_until_cleared string unit Samples.routes); reflexivity.
Defined.

(** X8 at a run that signs in and then drops the user. *)
Lemma protected_content_needs_user_witness :
  let acts := [AuthStore.Login (Some "ada") "t0"; AuthStore.SetUser None] in
  forallb AuthStore.login_has_user acts = true
  /\ Routing.ProtectedRoute Samples.routes tt None
       (AuthStore.run acts AuthStore.initialState)
       {| Routing.pathname := "/accounts"; Routing.state := None |} =
     Routing.Navigate "/login" (Some {| Routing.from := Some "/accounts" |}) true.
Proof.
  cbv zeta. split; [reflexivity|].
  apply (@protected_content_needs_user string unit Samples.routes
           [AuthStore.Login (Some "ada") "t0"; AuthStore.SetUser None] tt None
           {| Routing.pathname := "/accounts"; Routing.state := None |});
    reflexivity.
Defined.

(** * Further properties of the connection workflow *)

Section PlatformServiceRuns.

Import PlatformService Runs.

Context {Err Credentials : Type}.

Implicit Types (api : Api Err Credentials) (log : Console Err)
  (platformId : string) (credentials : Credentials)
  (apiCredentials : ApiKeyCredentials.t).

(** Unfolding an [async] body on a known outcome of its backend call. *)
Ltac settle_on H :=
  unfold getPlatforms, connectWithCredentials, connectWithApiKey,
    getConnectedPlatforms, disconnect, getPlaidLinkToken,
    try_catch, bind, await, console_error, ret, throw;
  rewrite H; cbn [fst snd].

(** Selecting by id commutes with the conversion, which copies the id. *)
Lemma filter_to_platform (k : string) (data : list BackendPlatform.t) :
  filter (fun platform => Platform.id platform = k) (map to_platform data) =
  map to_platform (filter (fun platform => BackendPlatform.id platform = k) data).
Proof.
  induction data as [|b data IH]; [reflexivity|].
  cbn [map]. rewrite !filter_cons. cbn [to_platform Platform.id].
  destruct (decide (BackendPlatform.id b = k)); cbn [map]; rewrite IH; reflexivity.
Qed.

Lemma getPlatforms_fulfilled api log data :
  get_platforms api "/platforms" = Fulfilled data ->
  (getPlatforms api log).1 =
  Fulfilled (Groups.mk
    (match filter (fun platform => BackendPlatform.id platform = "wallet") data with
     | [] => [fallbackWallet]
     | wallets => map to_platform wallets
     end)
    (map to_platform (filter (fun platform => BackendPlatform.id platform = "plaid") data))
    []).
Proof.
  intros H. settle_on H. fold to_platform. rewrite !filter_to_platform.
  destruct (filter (fun platform => BackendPlatform.id platform = "wallet") data)
    as [|w ws]; cbn [map length].
  - destruct (decide (0 < 0)); [lia | reflexivity].
  - destruct (decide (0 < S (length (map to_platform ws)))); [reflexivity | lia].
Qed.

(** X10: what a fulfilled [/platforms] call turns into. [crypto] holds
    the backend's entries with id [wallet], in order, or the default
    wallet alone when there are none; [banks] holds the entries with id
    [plaid] and gets no default; entries with any other id are dropped and
    [brokers] is empty. *)
Theorem getPlatforms_groups_by_id api log data :
  get_platforms api "/platforms" = Fulfilled data ->
  (getPlatforms api log).1 =
  Fulfilled (Groups.mk
    (match filter (fun platform => BackendPlatform.id platform = "wallet") data with
     | [] => [fallbackWallet]
     | wallets => map to_platform wallets
     end)
    (map to_platform (filter (fun platform => BackendPlatform.id platform = "plaid") data))
    []).
Proof. apply getPlatforms_fulfilled. Qed.

(** X11: [getPlatforms] always hands back something to render: for every
    backend and outcome it ends fulfilled, with at least one entry under
    [crypto], only [wallet] ids under [crypto], only [plaid] ids under
    [banks] and nothing under [brokers]. *)
Theorem getPlatforms_always_renderable api log :
  exists groups,
    (getPlatforms api log).1 = Fulfilled groups
    /\ 0 < length (Groups.crypto groups)
    /\ Forall (fun p => Platform.id p = "wallet") (Groups.crypto groups)
    /\ Forall (fun p => Platform.id p = "plaid") (Groups.banks groups)
    /\ Groups.brokers groups = [].
Proof.
  destruct (get_platforms api "/platforms") as [data|e] eqn:H.
  - eexists. split; [apply getPlatforms_fulfilled; exact H|].
    cbn [Groups.crypto Groups.banks Groups.brokers].
    split; [|split; [|split; [|reflexivity]]].
    + destruct (filter _ data); cbn; lia.
    + destruct (filter (fun platform => BackendPlatform.id platform = "wallet") data)
        as [|w ws] eqn:Hw.
      * repeat constructor.
      * rewrite <- Hw, Forall_forall. intros p Hp.
        apply list_elem_of_fmap in Hp as (b & -> & Hb).
        apply list_elem_of_filter in Hb as [Hid _]. exact Hid.
    + rewrite Forall_forall. intros p Hp.
      apply list_elem_of_fmap in Hp as (b & -> & Hb).
      apply list_elem_of_filter in Hb as [Hid _]. exact Hid.
  - eexists. split; [settle_on H; reflexivity|].
    cbn. split; [lia|]. repeat constructor.
Qed.

Lemma flatten_spec_nil (data : list Connected.t) :
  flatten_spec data = [] <-> Forall (fun item => Connected.accounts item = []) data.
Proof.
  unfold flatten_spec. induction data as [|item data IH]; cbn [map concat].
  - split; [constructor | reflexivity].
  - split.
    + intros Happ. apply app_eq_nil in Happ as [Hhd Htl].
      constructor; [|apply IH; exact Htl].
      destruct (Connected.accounts item); [reflexivity | discriminate Hhd].
    + intros Hall. inversion Hall as [|? ? Hhd Htl]; subst.
      rewrite Hhd. cbn [map app]. apply IH. exact Htl.
Qed.

(** X12: a connected platform shows up only through its accounts. On a
    fulfilled call the result of [getConnectedPlatforms] is empty exactly
    when no platform of the payload has an account. *)
Theorem getConnectedPlatforms_empty_iff api log data :
  get_connected api "/platforms/connected" = Fulfilled data ->
  (getConnectedPlatforms api log).1 = Fulfilled [] <->
  Forall (fun item => Connected.accounts item = []) data.
Proof.
  intros H. settle_on H. rewrite nested_forEach_flatten, app_nil_l.
  rewrite <- flatten_spec_nil. split.
  - intros Heq. injection Heq as Heq. exact Heq.
  - intros ->. reflexivity.
Qed.

(** X13: the two operations that let a failure through. [disconnect]
    rejects with the very error of its backend call after logging it once,
    and is fulfilled without logging otherwise; [getPlaidLinkToken] rejects
    with the error of its call and logs nothing, and on a fulfilled call
    returns [link_token] without looking at [success]. *)
Theorem propagated_failures api platformId log :
  (forall e,
     delete api ("/platforms/" +:+ platformId +:+ "/connection") = Rejected e ->
     disconnect api platformId log =
     (Rejected e, (log ++ [("Failed to disconnect platform:", e)])%list))
  /\ (delete api ("/platforms/" +:+ platformId +:+ "/connection") = Fulfilled tt ->
      disconnect api platformId log = (Fulfilled tt, log))
  /\ (forall e,
        post_link_token api "/plaid/link-token" = Rejected e ->
        getPlaidLinkToken api log = (Rejected e, log))
  /\ (forall data,
        post_link_token api "/plaid/link-token" = Fulfilled data ->
        getPlaidLinkToken api log = (Fulfilled (LinkToken.link_token data), log)).
Proof.
  split; [|split; [|split]].
  - intros e H. settle_on H. reflexivity.
  - intros H. settle_on H. reflexivity.
  - intros e H. settle_on H. reflexivity.
  - intros data H. settle_on H. reflexivity.
Qed.

(** X14: the four absorbing operations and the console. Each of
    [getPlatforms], [connectWithCredentials], [connectWithApiKey] and
    [getConnectedPlatforms] ends fulfilled whatever its backend call did,
    keeps the console as it was when the call was fulfilled, and appends
    exactly one entry, its own message with the call's error, when the call
    was rejected. *)
Theorem absorbed_failures_log_once api platformId credentials apiCredentials log :
  absorbs (getPlatforms api) (get_platforms api "/platforms")
          "Failed to fetch platforms:" log
  /\ absorbs (connectWithCredentials api platformId credentials)
             (post_connect api ("/platforms/" +:+ platformId +:+ "/connect")
                (CredentialsBody credentials))
             "Failed to connect platform:" log
  /\ absorbs (connectWithApiKey api platformId apiCredentials)
             (post_connect api ("/platforms/" +:+ platformId +:+ "/connect")
                (ApiKeyBody (ApiKeyCredentials.apiKey apiCredentials)
                            (ApiKeyCredentials.apiSecret apiCredentials)))
             "Failed to connect platform with API key:" log
  /\ absorbs (getConnectedPlatforms api) (get_connected api "/platforms/connected")
             "Failed to fetch connected platforms:" log.
Proof.
  unfold absorbs. split; [|split; [|split]].
  - destruct (get_platforms api "/platforms") eqn:H; eexists; settle_on H; reflexivity.
  - destruct (post_connect api _ (CredentialsBody credentials)) eqn:H;
      eexists; settle_on H; reflexivity.
  - destruct (post_connect api _ (ApiKeyBody _ _)) eqn:H;
      eexists; settle_on H; reflexivity.
  - destruct (get_connected api "/platforms/connected") eqn:H;
      eexists; settle_on H; reflexivity.
Qed.

End PlatformServiceRuns.

(** X10 at a backend listing an exchange, two wallets and no Plaid entry. *)
Lemma getPlatforms_groups_by_id_witness :
  let binance := BackendPlatform.mk "binance" "Binance" "/binance.svg" Crypto in
  let hot := BackendPlatform.mk "wallet" "Hot wallet" "/hot.svg" Crypto in
  let cold := BackendPlatform.mk "wallet" "Cold wallet" "/cold.svg" Bank in
  (PlatformService.getPlatforms
     (Runs.listing string unit [binance; hot; cold] []) []).1 =
  PlatformService.Fulfilled
    (Groups.mk [Platform.mk "wallet" "Hot wallet" "/hot.svg" Crypto;
                Platform.mk "wallet" "Cold wallet" "/cold.svg" Bank] [] []).
Proof.
  cbv zeta.
  rewrite (getPlatforms_groups_by_id
             (Runs.listing string unit
                [BackendPlatform.mk "binance" "Binance" "/binance.svg" Crypto;
                 BackendPlatform.mk "wallet" "Hot wallet" "/hot.svg" Crypto;
                 BackendPlatform.mk "wallet" "Cold wallet" "/cold.svg" Bank] []) []
             _ eq_refl).
  reflexivity.
Defined.

(** X12 at a payload of two platforms without accounts. *)
Lemma getConnectedPlatforms_empty_iff_witness :
  let kraken := BackendPlatform.mk "kraken" "Kraken" "/kraken.svg" Crypto in
  let plaid := BackendPlatform.mk "plaid" "Plaid" "/plaid.svg" Bank in
  (PlatformService.getConnectedPlatforms
     (Runs.listing string unit [] [Connected.mk kraken []; Connected.mk plaid []])
     []).1 = PlatformService.Fulfilled [].
Proof.
  cbv zeta.
  apply (getConnectedPlatforms_empty_iff
           (Runs.listing string unit []
              [Connected.mk (BackendPlatform.mk "kraken" "Kraken" "/kraken.svg" Crypto) [];
               Connected.mk (BackendPlatform.mk "plaid" "Plaid" "/plaid.svg" Bank) []])
           [] _ eq_refl).
  repeat constructor.
Defined.

(** X15: [login] is the three setters at once. For a user [u], calling
    [setUser(u)], [setToken(t)] and [clearError()] one after the other, in
    this or in the opposite order, leaves the store where [login(u, t)]
    leaves it; with no user the two differ in [isAuthenticated]. *)
Theorem login_is_three_setters {User : Type} (s : AuthStore.AuthState User)
    (u : User) (t : string) :
  AuthStore.run [AuthStore.SetUser (Some u); AuthStore.SetToken (Some t);
                 AuthStore.ClearError] s = AuthStore.login (Some u) t s
  /\ AuthStore.run [AuthStore.ClearError; AuthStore.SetToken (Some t);
                    AuthStore.SetUser (Some u)] s = AuthStore.login (Some u) t s
  /\ AuthStore.isAuthenticated
       (AuthStore.run [AuthStore.SetUser None; AuthStore.SetToken (Some t);
                       AuthStore.ClearError] s) = false
  /\ AuthStore.isAuthenticated (AuthStore.login None t s) = true.
Proof. repeat split. Qed.
